(** * Shallow embedding of [mybot.py]: validation, deduplication and
    Excel import of customer phone numbers kept in the SQLite table
    [clients (username TEXT, phone_number TEXT UNIQUE, added_time TEXT)]. *)

From Stdlib Require Import List NArith Bool Lia String Ascii.
Import ListNotations.
Open Scope N_scope.

(** ** Python text *)

(** A Python [str] is a sequence of Unicode code points. *)
Definition pystr := list N.

(** Literal helper: the code points of an ASCII [string]. *)
Definition str (s : string) : pystr :=
  map (fun a => N_of_ascii a) (list_ascii_of_string s).

(** Code points for which [str.isspace] holds (the set [str.strip] removes):
    [\t\n\v\f\r], [\x1c]-[\x1f], space, [\x85], [\xa0], U+1680,
    U+2000-U+200A, U+2028, U+2029, U+202F, U+205F, U+3000. *)
Definition py_whitespace : list N :=
  [9; 10; 11; 12; 13; 28; 29; 30; 31; 32; 133; 160; 5760;
   8192; 8193; 8194; 8195; 8196; 8197; 8198; 8199; 8200; 8201; 8202;
   8232; 8233; 8239; 8287; 12288].

Definition is_space (c : N) : bool := existsb (N.eqb c) py_whitespace.

Fixpoint lstrip (s : pystr) : pystr :=
  match s with
  | c :: r => if is_space c then lstrip r else s
  | [] => []
  end.

(** [s.strip()] *)
Definition py_strip (s : pystr) : pystr := rev (lstrip (rev (lstrip s))).

(** ** The Unicode character database *)

(** The two digit classes of the Unicode Character Database that the code
    depends on, left abstract: Python's [str.isdigit] and [re]'s [\d] read
    them from the [unicodedata] tables of the running interpreter, which
    change between Unicode versions.  The fields record what holds in every
    version: on ASCII both classes are exactly ['0']-['9'], a decimal digit
    is a digit, and no digit is whitespace. *)
Record unicode_db := {
  (** General category Nd (Numeric_Type=Decimal): the characters matched
      by [\d] in a [str] pattern. *)
  ud_decimal : N -> bool;
  (** Numeric_Type Decimal or Digit: the per-character test of
      [str.isdigit]. *)
  ud_digit : N -> bool;
  ud_ascii_decimal : forall c, c < 128 -> ud_decimal c = (48 <=? c) && (c <=? 57);
  ud_ascii_digit : forall c, c < 128 -> ud_digit c = (48 <=? c) && (c <=? 57);
  ud_decimal_digit : forall c, ud_decimal c = true -> ud_digit c = true;
  ud_digit_not_space : forall c, ud_digit c = true -> is_space c = false
}.

(** A fragment of the database, for evaluating concrete inputs: the ASCII
    decimal digits, and superscripts two, three and one (U+00B2, U+00B3,
    U+00B9), which have Numeric_Type=Digit but are not decimal. *)
Definition sample_decimal (c : N) : bool := (48 <=? c) && (c <=? 57).

Definition sample_digit (c : N) : bool :=
  sample_decimal c || (c =? 178) || (c =? 179) || (c =? 185).

Definition sample_ucd : unicode_db.
Proof.
  refine {| ud_decimal := sample_decimal; ud_digit := sample_digit |}.
  - intros c _; reflexivity.
  - intros c Hc; unfold sample_digit.
    assert (E1 : (c =? 178) = false) by (apply N.eqb_neq; lia).
    assert (E2 : (c =? 179) = false) by (apply N.eqb_neq; lia).
    assert (E3 : (c =? 185) = false) by (apply N.eqb_neq; lia).
    rewrite E1, E2, E3, !orb_false_r; reflexivity.
  - intros c H; unfold sample_digit; rewrite H; reflexivity.
  - intros c Hd; destruct (is_space c) eqn:E; [| reflexivity].
    unfold is_space in E; apply existsb_exists in E as [x [Hx Hcx]].
    apply N.eqb_eq in Hcx; subst x.
    repeat (destruct Hx as [<-|Hx]; [discriminate Hd |]); destruct Hx.
Defined.

Section Mybot.

Context (U : unicode_db).

(** ** The validator *)

(** [\d] of Python's [re] on [str]. *)
Definition is_decimal_char (c : N) : bool := ud_decimal U c.

(** The per-character test of [str.isdigit]. *)
Definition is_digit_char (c : N) : bool := ud_digit U c.

(** [s.isdigit()]: non-empty and every character is a digit. *)
Definition py_isdigit (s : pystr) : bool :=
  match s with
  | [] => false
  | _ => forallb is_digit_char s
  end.

Definition plus_sign : N := 43.

(** The check of [handle_message] (line 95) and [batch_input] (line 137):
    [text.startswith("+") and text[1:].isdigit() and 7 <= len(text[1:]) <= 15]. *)
Definition valid_phone (text : pystr) : bool :=
  match text with
  | c :: rest =>
      (c =? plus_sign) && py_isdigit rest
      && (7 <=? N.of_nat (List.length rest)) && (N.of_nat (List.length rest) <=? 15)
  | [] => false
  end.

(** Spec side: a full match of [^\+\d{7,15}$], a ['+'] followed by 7 to 15
    decimal digits and nothing else. *)
Definition matches_phone_regex (s : pystr) : bool :=
  match s with
  | c :: rest =>
      (c =? plus_sign) && forallb is_decimal_char rest
      && (7 <=? N.of_nat (List.length rest)) && (N.of_nat (List.length rest) <=? 15)
  | [] => false
  end.

(** ** The SQLite table [clients] *)

(** A stored value after the TEXT affinity of the column: a text, or NULL
    (what a pandas NaN, i.e. an empty Excel cell, is bound as). *)
Inductive sqlval := SNull | SText (s : pystr).

Record client := mk_client {
  username : sqlval;
  phone_number : sqlval;
  added_time : sqlval
}.

(** The rows of [clients], in insertion order. *)
Definition table := list client.

Definition pystr_eqb (a b : pystr) : bool :=
  if list_eq_dec N.eq_dec a b then true else false.

(** [phone_number = ?] in SQL: NULL compares equal to nothing. *)
Definition sql_eq_text (v : sqlval) (p : pystr) : bool :=
  match v with
  | SText q => pystr_eqb q p
  | SNull => false
  end.

(** [SELECT 1 FROM clients WHERE phone_number = ?] returns a row. *)
Definition select_exists (t : table) (p : pystr) : bool :=
  existsb (fun r => sql_eq_text (phone_number r) p) t.

(** The UNIQUE constraint of [phone_number]: a non-NULL value may not
    appear twice; NULLs never conflict. *)
Definition violates_unique (t : table) (r : client) : bool :=
  match phone_number r with
  | SText p => select_exists t p
  | SNull => false
  end.

(** [INSERT INTO clients ...]: [None] is the raised [sqlite3.IntegrityError]. *)
Definition sql_insert (t : table) (r : client) : option table :=
  if violates_unique t r then None else Some (t ++ [r]).

(** [INSERT OR IGNORE INTO clients ...] *)
Definition sql_insert_or_ignore (t : table) (r : client) : table :=
  if violates_unique t r then t else t ++ [r].

(** ** Database functions *)

(** Python values returned to the caller. *)
Inductive pyval := PyNone | PyBool (b : bool).

(** [number_exists(phone_number)] *)
Definition number_exists (t : table) (phone : pystr) : bool :=
  select_exists t phone.

(** [add_number(username, phone_number, added_time)]: the INSERT, with an
    [IntegrityError] caught and ignored; the function returns [None]. *)
Definition add_number (t : table) (user phone time : pystr) : pyval * table :=
  match sql_insert t (mk_client (SText user) (SText phone) (SText time)) with
  | Some t' => (PyNone, t')
  | None => (PyNone, t)
  end.

(** [update.message.from_user.username or "unknown"]: a missing or empty
    handle is replaced by ["unknown"]. *)
Definition user_or_unknown (u : option pystr) : pystr :=
  match u with
  | None | Some [] => str "unknown"
  | Some s => s
  end.

(** ** [handle_message] *)

(** The three replies of [handle_message]. *)
Inductive reply :=
  | ReplyInvalid
  | ReplyExists (shown : pystr)
  | ReplySaved (shown : pystr).

(** [handle_message]: [raw] is [update.message.text], [u] the sender's
    handle and [now] the formatted [pd.Timestamp.now()]. *)
Definition handle_message (t : table) (raw : pystr) (u : option pystr)
    (now : pystr) : reply * table :=
  let text := py_strip raw in
  let user := user_or_unknown u in
  if negb (valid_phone text) then (ReplyInvalid, t)
  else if number_exists t text then (ReplyExists text, t)
  else (ReplySaved text, snd (add_number t user text now)).

(** ** [batch_input] *)

(** Loop state: the connection's view of the table (its own uncommitted
    inserts included) and [added_list], [exists_list], [invalid_list]. *)
Record batch_state := mk_bs {
  bs_table : table;
  bs_added : list pystr;
  bs_exists : list pystr;
  bs_invalid : list pystr
}.

(** One iteration of [for num in numbers]; [None] is an escaping
    [IntegrityError] from the plain INSERT. *)
Definition batch_step (user now : pystr) (st : batch_state) (raw : pystr)
    : option batch_state :=
  let num := py_strip raw in
  if valid_phone num then
    if select_exists (bs_table st) num then
      Some (mk_bs (bs_table st) (bs_added st) (bs_exists st ++ [num]) (bs_invalid st))
    else
      match sql_insert (bs_table st) (mk_client (SText user) (SText num) (SText now)) with
      | Some t' => Some (mk_bs t' (bs_added st ++ [num]) (bs_exists st) (bs_invalid st))
      | None => None
      end
  else Some (mk_bs (bs_table st) (bs_added st) (bs_exists st) (bs_invalid st ++ [num])).

Fixpoint batch_loop (user now : pystr) (st : batch_state) (nums : list pystr)
    : option batch_state :=
  match nums with
  | [] => Some st
  | n :: rest =>
      match batch_step user now st n with
      | Some st' => batch_loop user now st' rest
      | None => None
      end
  end.

Inductive batch_reply :=
  | BatchUsage
  | BatchResult (added existing invalid : list pystr)
  | BatchError.

(** [batch_input]: [args] is [context.args].  The table is committed only
    when the loop finishes; an escaping exception leaves it unchanged. *)
Definition batch_input (t : table) (args : list pystr) (u : option pystr)
    (now : pystr) : batch_reply * table :=
  match args with
  | [] => (BatchUsage, t)
  | _ =>
      match batch_loop (user_or_unknown u) now (mk_bs t [] [] []) args with
      | Some st => (BatchResult (bs_added st) (bs_exists st) (bs_invalid st), bs_table st)
      | None => (BatchError, t)
      end
  end.

(** ** Excel import *)

(** A cell of the DataFrame read by [pd.read_excel]: a string, or NaN for
    an empty cell (bound by [sqlite3] as NULL). *)
Inductive cell := CStr (s : pystr) | CEmpty.

Definition bind_cell (c : cell) : sqlval :=
  match c with
  | CStr s => SText s
  | CEmpty => SNull
  end.

(** What [pd.read_excel(file_path)] yields: an exception, or a sheet with
    its header and its data rows. *)
Inductive xlfile :=
  | XlUnreadable
  | XlSheet (columns : list pystr) (rows : list (list cell)).

Fixpoint column_index (cols : list pystr) (name : pystr) : option nat :=
  match cols with
  | [] => None
  | c :: rest =>
      if pystr_eqb c name then Some O
      else option_map S (column_index rest name)
  end.

(** [row[name]]: [None] is the [KeyError] of a missing column; a short row
    is padded with NaN. *)
Definition row_get (cols : list pystr) (row : list cell) (name : pystr)
    : option sqlval :=
  match column_index cols name with
  | Some i => Some (bind_cell (nth i row CEmpty))
  | None => None
  end.

Definition col_username := str "username".
Definition col_phone_number := str "phone_number".
Definition col_added_time := str "added_time".

(** The tuple [(row['username'], row['phone_number'], row['added_time'])],
    evaluated left to right. *)
Definition row_client (cols : list pystr) (row : list cell) : option client :=
  match row_get cols row col_username with
  | None => None
  | Some u =>
      match row_get cols row col_phone_number with
      | None => None
      | Some p =>
          match row_get cols row col_added_time with
          | None => None
          | Some a => Some (mk_client u p a)
          end
      end
  end.

(** The [for _, row in df.iterrows()] loop of INSERT OR IGNORE statements
    on the connection's uncommitted view; [None] is an exception. *)
Fixpoint import_rows (cols : list pystr) (t : table) (rows : list (list cell))
    : option table :=
  match rows with
  | [] => Some t
  | row :: rest =>
      match row_client cols row with
      | Some r => import_rows cols (sql_insert_or_ignore t r) rest
      | None => None
      end
  end.

(** The two summary strings of [import_data]; the failure one carries
    [str(e)]. *)
Inductive import_reply := ImportOk | ImportFailed.

(** [import_data(file_path)]: the inserts are committed only after the
    loop; on an exception the uncommitted connection is dropped, so the
    table is unchanged. *)
Definition import_data (t : table) (f : xlfile) : import_reply * table :=
  match f with
  | XlUnreadable => (ImportFailed, t)
  | XlSheet cols rows =>
      match import_rows cols t rows with
      | Some t' => (ImportOk, t')
      | None => (ImportFailed, t)
      end
  end.

(** ** Properties used by the claims *)

(** The non-NULL phone numbers of the table. *)
Definition text_phones (t : table) : list pystr :=
  flat_map (fun r => match phone_number r with SText p => [p] | SNull => [] end) t.

(** The UNIQUE constraint holds. *)
Definition unique_phones (t : table) : Prop := NoDup (text_phones t).


Example strip_ex : py_strip (str "  +1234567 ") = str "+1234567".
Proof. reflexivity. Qed.

(** The rows of an import whose phone-number cell is empty, as stored:
    NULL never conflicts with the UNIQUE constraint. *)
Fixpoint null_phone_clients (cols : list pystr) (rows : list (list cell)) : list client :=
  match rows with
  | [] => []
  | row :: rest =>
      match row_client cols row with
      | Some r =>
          match phone_number r with
          | SNull => r :: null_phone_clients cols rest
          | SText _ => null_phone_clients cols rest
          end
      | None => []
      end
  end.

Definition import_null_rows (f : xlfile) : list client :=
  match f with
  | XlSheet cols rows => null_phone_clients cols rows
  | XlUnreadable => []
  end.

(** The header [import_data] reads: the three columns of [clients]. *)
Definition std_cols : list pystr := [col_username; col_phone_number; col_added_time].

(** The row [batch_input] and [add_number] store for a number. *)
Definition new_client (user now p : pystr) : client :=
  mk_client (SText user) (SText p) (SText now).

(** ** Lemmas on the table *)

Lemma pystr_eqb_spec (a b : pystr) : pystr_eqb a b = true <-> a = b.
Proof.
  unfold pystr_eqb; destruct (list_eq_dec N.eq_dec a b); split; congruence.
Qed.

Lemma pystr_eqb_refl (a : pystr) : pystr_eqb a a = true.
Proof. apply pystr_eqb_spec; reflexivity. Qed.

Lemma text_phones_app (t u : table) :
  text_phones (t ++ u) = text_phones t ++ text_phones u.
Proof. apply flat_map_app. Qed.

Lemma select_exists_in (t : table) (p : pystr) :
  select_exists t p = true <-> In p (text_phones t).
Proof.
  induction t as [|r t IH]; [simpl; split; [discriminate | tauto] |].
  change (text_phones (r :: t)) with
    ((match phone_number r with SText q => [q] | SNull => [] end) ++ text_phones t).
  simpl select_exists; rewrite orb_true_iff, IH, in_app_iff.
  destruct (phone_number r) as [|q]; simpl.
  - split; [intros [H|H]; [discriminate | now right] | intros [[]|H]; now right].
  - rewrite pystr_eqb_spec. split.
    + intros [H|H]; [left; subst; now left | now right].
    + intros [[H|[]]|H]; [now left | now right].
Qed.

Lemma select_exists_app (t u : table) (p : pystr) :
  select_exists (t ++ u) p = select_exists t p || select_exists u p.
Proof. apply existsb_app. Qed.

Lemma unique_snoc (t : table) (r : client) :
  unique_phones t -> violates_unique t r = false -> unique_phones (t ++ [r]).
Proof.
  unfold unique_phones, violates_unique; intros Hnd Hv.
  rewrite text_phones_app; apply NoDup_app; [exact Hnd | |].
  - simpl; destruct (phone_number r); simpl; repeat constructor; simpl; tauto.
  - simpl; destruct (phone_number r) as [|p]; simpl; [tauto |].
    intros a Ha [<-|[]]. apply select_exists_in in Ha; congruence.
Qed.

Lemma sql_insert_unique (t t' : table) (r : client) :
  unique_phones t -> sql_insert t r = Some t' -> unique_phones t'.
Proof.
  unfold sql_insert; intros Hu; case_eq (violates_unique t r); intros Hv H;
    inversion H; subst; now apply unique_snoc.
Qed.

Lemma sql_insert_or_ignore_unique (t : table) (r : client) :
  unique_phones t -> unique_phones (sql_insert_or_ignore t r).
Proof.
  unfold sql_insert_or_ignore; intros Hu; case_eq (violates_unique t r);
    intros Hv; [exact Hu | now apply unique_snoc].
Qed.

Lemma add_number_unique (t : table) (u p a : pystr) :
  unique_phones t -> unique_phones (snd (add_number t u p a)).
Proof.
  unfold add_number; intros Hu.
  destruct (sql_insert _ _) eqn:E; simpl; [eapply sql_insert_unique; eauto | exact Hu].
Qed.

Lemma add_number_eq (t : table) (u p a : pystr) :
  add_number t u p a =
  (PyNone, if number_exists t p then t
           else t ++ [mk_client (SText u) (SText p) (SText a)]).
Proof.
  unfold add_number, sql_insert, violates_unique, number_exists; simpl.
  destruct (select_exists t p); reflexivity.
Qed.

Lemma batch_step_unique (user now : pystr) (st st' : batch_state) (x : pystr) :
  unique_phones (bs_table st) -> batch_step user now st x = Some st' ->
  unique_phones (bs_table st').
Proof.
  unfold batch_step; intros Hu H.
  destruct (valid_phone _); [destruct (select_exists _ _) |].
  - inversion H; subst; exact Hu.
  - destruct (sql_insert _ _) eqn:E; inversion H; subst; simpl.
    eapply sql_insert_unique; eauto.
  - inversion H; subst; exact Hu.
Qed.

Lemma batch_loop_unique (user now : pystr) (nums : list pystr) :
  forall st st', unique_phones (bs_table st) ->
  batch_loop user now st nums = Some st' -> unique_phones (bs_table st').
Proof.
  induction nums as [|x nums IH]; simpl; intros st st' Hu H.
  - inversion H; subst; exact Hu.
  - destruct (batch_step user now st x) as [st1|] eqn:E; [| discriminate].
    eapply IH; [eapply batch_step_unique; eauto | exact H].
Qed.

Lemma import_rows_unique (cols : list pystr) (rows : list (list cell)) :
  forall t t', unique_phones t -> import_rows cols t rows = Some t' ->
  unique_phones t'.
Proof.
  induction rows as [|row rows IH]; simpl; intros t t' Hu H.
  - inversion H; subst; exact Hu.
  - destruct (row_client cols row); [| discriminate].
    eapply IH; [apply sql_insert_or_ignore_unique; exact Hu | exact H].
Qed.

(** ** Lemmas on the validator and [strip] *)

Lemma ascii_digit_is_decimal (c : N) :
  c < 128 -> is_digit_char c = is_decimal_char c.
Proof.
  intros Hc; unfold is_digit_char, is_decimal_char.
  rewrite (ud_ascii_digit U c Hc), (ud_ascii_decimal U c Hc); reflexivity.
Qed.

Lemma decimal_is_digit (c : N) : is_decimal_char c = true -> is_digit_char c = true.
Proof. apply ud_decimal_digit. Qed.

Lemma forallb_ascii_digit (s : pystr) :
  Forall (fun c => c < 128) s ->
  forallb is_digit_char s = forallb is_decimal_char s.
Proof.
  induction 1 as [|c s Hc _ IH]; [reflexivity |].
  simpl; rewrite ascii_digit_is_decimal, IH by exact Hc; reflexivity.
Qed.

Lemma digit_not_space (c : N) : is_digit_char c = true -> is_space c = false.
Proof. apply ud_digit_not_space. Qed.

Lemma valid_phone_parts (p : pystr) :
  valid_phone p = true ->
  exists d r, p = plus_sign :: d :: r /\ forallb is_digit_char (d :: r) = true.
Proof.
  destruct p as [|c0 rest]; [discriminate |]; unfold valid_phone; intros H.
  apply andb_prop in H as [H _]; apply andb_prop in H as [H _].
  apply andb_prop in H as [Hplus Hdig]; apply N.eqb_eq in Hplus; subst c0.
  destruct rest as [|d r]; [discriminate |]; exists d, r; split; [reflexivity | exact Hdig].
Qed.

Lemma valid_phone_chars (p : pystr) :
  valid_phone p = true -> forall c, In c p -> is_space c = false.
Proof.
  intros Hp; destruct (valid_phone_parts p Hp) as [d [r [-> Hdig]]].
  intros c [<-|Hc]; [reflexivity |].
  apply digit_not_space; exact (proj1 (forallb_forall _ _) Hdig c Hc).
Qed.

Lemma lstrip_head (c : N) (l : pystr) : is_space c = false -> lstrip (c :: l) = c :: l.
Proof. intros H; simpl; rewrite H; reflexivity. Qed.

Lemma lstrip_spaces (ws l : pystr) :
  Forall (fun c => is_space c = true) ws -> lstrip (ws ++ l) = lstrip l.
Proof.
  induction 1 as [|c ws Hc _ IH]; [reflexivity |]; simpl; rewrite Hc; exact IH.
Qed.

Lemma strip_around_valid (ws1 p ws2 : pystr) :
  Forall (fun c => is_space c = true) ws1 ->
  Forall (fun c => is_space c = true) ws2 ->
  valid_phone p = true -> py_strip (ws1 ++ p ++ ws2) = p.
Proof.
  intros H1 H2 Hp; unfold py_strip.
  pose proof (valid_phone_chars p Hp) as Hc.
  rewrite lstrip_spaces by exact H1.
  destruct p as [|c p']; [discriminate |].
  simpl app; rewrite lstrip_head by (apply Hc; now left).
  change (c :: p' ++ ws2) with ((c :: p') ++ ws2).
  rewrite rev_app_distr, lstrip_spaces by (apply Forall_rev; exact H2).
  destruct (rev (c :: p')) as [|z zs] eqn:E.
  - apply (f_equal (@rev N)) in E; rewrite rev_involutive in E; discriminate.
  - rewrite lstrip_head, <- E, rev_involutive; [reflexivity |].
    apply Hc, in_rev; rewrite E; now left.
Qed.

Lemma strip_valid (p : pystr) : valid_phone p = true -> py_strip p = p.
Proof.
  intros Hp; pose proof (strip_around_valid [] p [] (Forall_nil _) (Forall_nil _) Hp) as H.
  rewrite app_nil_r in H; exact H.
Qed.

(** ** Lemmas on the batch loop *)

(** The table seen by the loop after one item: the stripped item is added
    to the phone numbers present exactly when it is valid. *)
Lemma batch_step_table (user now : pystr) (st st' : batch_state) (x : pystr) :
  batch_step user now st x = Some st' -> forall p,
  select_exists (bs_table st') p =
  select_exists (bs_table st) p || (valid_phone (py_strip x) && pystr_eqb (py_strip x) p).
Proof.
  unfold batch_step; intros H p.
  destruct (valid_phone (py_strip x)) eqn:Hv; simpl.
  - destruct (select_exists (bs_table st) (py_strip x)) eqn:Hs.
    + inversion H; subst; simpl.
      destruct (pystr_eqb (py_strip x) p) eqn:E; [| now rewrite orb_false_r].
      apply pystr_eqb_spec in E; subst p; now rewrite Hs.
    + unfold sql_insert, violates_unique in H; simpl in H; rewrite Hs in H.
      inversion H; subst; simpl.
      rewrite select_exists_app; simpl; rewrite orb_false_r; reflexivity.
  - inversion H; subst; simpl; now rewrite orb_false_r.
Qed.

Lemma batch_loop_table (user now : pystr) (l : list pystr) :
  forall st st', batch_loop user now st l = Some st' -> forall p,
  select_exists (bs_table st') p =
  select_exists (bs_table st) p
  || existsb (fun q => valid_phone (py_strip q) && pystr_eqb (py_strip q) p) l.
Proof.
  induction l as [|x l IH]; simpl; intros st st' H p.
  - inversion H; subst; now rewrite orb_false_r.
  - destruct (batch_step user now st x) as [st1|] eqn:E; [| discriminate].
    rewrite (IH _ _ H p), (batch_step_table _ _ _ _ _ E p), orb_assoc; reflexivity.
Qed.

Lemma existsb_strip_valid (pre : list pystr) (p : pystr) :
  valid_phone p = true ->
  existsb (fun q => valid_phone (py_strip q) && pystr_eqb (py_strip q) p) pre =
  existsb (fun q => pystr_eqb (py_strip q) p) pre.
Proof.
  intros Hp; induction pre as [|q pre IH]; [reflexivity |]; simpl; rewrite IH.
  destruct (pystr_eqb (py_strip q) p) eqn:E; [| now rewrite andb_false_r].
  apply pystr_eqb_spec in E; rewrite E, Hp; reflexivity.
Qed.

Lemma batch_step_strip (user now : pystr) (st : batch_state) (a b : pystr) :
  py_strip a = py_strip b -> batch_step user now st a = batch_step user now st b.
Proof. intros E; unfold batch_step; rewrite E; reflexivity. Qed.

Lemma batch_loop_strip (user now : pystr) (a b : pystr) (post : list pystr) :
  py_strip a = py_strip b -> forall pre st,
  batch_loop user now st (pre ++ a :: post) = batch_loop user now st (pre ++ b :: post).
Proof.
  intros E; induction pre as [|x pre IH]; intros st; simpl.
  - rewrite (batch_step_strip _ _ _ _ _ E); reflexivity.
  - destruct (batch_step user now st x); [apply IH | reflexivity].
Qed.

Lemma text_phones_new_clients (user now : pystr) (l : list pystr) :
  text_phones (map (new_client user now) l) = l.
Proof. induction l as [|p l IH]; simpl; [reflexivity | now rewrite IH]. Qed.

Lemma batch_step_some (user now : pystr) (st : batch_state) (x : pystr) :
  exists st', batch_step user now st x = Some st'.
Proof.
  unfold batch_step.
  destruct (valid_phone (py_strip x)); [| eexists; reflexivity].
  destruct (select_exists (bs_table st) (py_strip x)) eqn:Hs; [eexists; reflexivity |].
  unfold sql_insert, violates_unique; simpl; rewrite Hs; eexists; reflexivity.
Qed.

Lemma batch_loop_some (user now : pystr) (l : list pystr) :
  forall st, exists st', batch_loop user now st l = Some st'.
Proof.
  induction l as [|x l IH]; intros st; simpl; [eexists; reflexivity |].
  destruct (batch_step_some user now st x) as [st1 ->]; apply IH.
Qed.

(** Invariant of the loop of [batch_input] started on table [t0]: the
    table is [t0] followed by the rows of [added_list], whose numbers are
    pairwise distinct and absent from [t0]; every entry of [exists_list] is
    valid and in [t0] or [added_list]. *)
Definition batch_inv (t0 : table) (user now : pystr) (st : batch_state) : Prop :=
  bs_table st = t0 ++ map (new_client user now) (bs_added st) /\
  NoDup (bs_added st) /\
  (forall p, In p (bs_added st) -> select_exists t0 p = false) /\
  (forall p, In p (bs_exists st) ->
     valid_phone p = true /\ (select_exists t0 p = true \/ In p (bs_added st))).

Lemma batch_inv_init (t : table) (user now : pystr) :
  batch_inv t user now (mk_bs t [] [] []).
Proof.
  unfold batch_inv; simpl; split; [now rewrite app_nil_r |].
  split; [constructor |]; split; intros p [].
Qed.

Lemma batch_step_inv (t0 : table) (user now : pystr) (st st' : batch_state) (x : pystr) :
  batch_inv t0 user now st -> batch_step user now st x = Some st' ->
  batch_inv t0 user now st'.
Proof.
  intros [Ht [Hnd [Hfresh Hex]]] H; unfold batch_step in H.
  destruct (valid_phone (py_strip x)) eqn:Hv.
  - destruct (select_exists (bs_table st) (py_strip x)) eqn:Hs.
    + inversion H; subst; unfold batch_inv; simpl.
      split; [exact Ht |]; split; [exact Hnd |]; split; [exact Hfresh |].
      intros q Hq; apply in_app_or in Hq as [Hq|[<-|[]]]; [now apply Hex |].
      split; [exact Hv |].
      rewrite Ht, select_exists_app in Hs; apply orb_true_iff in Hs as [Hs|Hs]; [now left |].
      right; apply select_exists_in in Hs; now rewrite text_phones_new_clients in Hs.
    + unfold sql_insert, violates_unique in H; simpl in H; rewrite Hs in H.
      inversion H; subst; unfold batch_inv; simpl.
      rewrite Ht, select_exists_app in Hs; apply orb_false_iff in Hs as [Hs0 Hsa].
      assert (Hnot : ~ In (py_strip x) (bs_added st)).
      { intros Hin; rewrite <- (text_phones_new_clients user now) in Hin.
        apply select_exists_in in Hin; congruence. }
      split; [rewrite Ht, map_app, app_assoc; reflexivity |].
      split.
      { apply NoDup_app; [exact Hnd | repeat constructor; simpl; tauto |].
        intros a Ha [<-|[]]; contradiction. }
      split.
      { intros q Hq; apply in_app_or in Hq as [Hq|[<-|[]]]; [now apply Hfresh | exact Hs0]. }
      intros q Hq; destruct (Hex q Hq) as [Hvq [Hin|Hin]]; split; auto.
      right; apply in_or_app; now left.
  - inversion H; subst; unfold batch_inv; simpl.
    split; [exact Ht |]; split; [exact Hnd |]; split; [exact Hfresh | exact Hex].
Qed.

Lemma batch_loop_inv (t0 : table) (user now : pystr) (l : list pystr) :
  forall st st', batch_inv t0 user now st -> batch_loop user now st l = Some st' ->
  batch_inv t0 user now st'.
Proof.
  induction l as [|x l IH]; simpl; intros st st' Hi H.
  - inversion H; subst; exact Hi.
  - destruct (batch_step user now st x) as [st1|] eqn:E; [| discriminate].
    eapply IH; [eapply batch_step_inv; eauto | exact H].
Qed.


(** One step of the batch loop changes the table as [handle_message] does. *)
Lemma batch_step_handle (u : option pystr) (now : pystr) (st st' : batch_state) (x : pystr) :
  batch_step (user_or_unknown u) now st x = Some st' ->
  bs_table st' = snd (handle_message (bs_table st) x u now).
Proof.
  unfold batch_step, handle_message; intros H.
  destruct (valid_phone (py_strip x)) eqn:Hv; simpl; [| now inversion H].
  unfold number_exists.
  destruct (select_exists (bs_table st) (py_strip x)) eqn:Hs; [now inversion H |].
  rewrite add_number_eq; unfold number_exists; rewrite Hs.
  unfold sql_insert, violates_unique in H; simpl in H; rewrite Hs in H.
  inversion H; reflexivity.
Qed.

Lemma batch_loop_handle (u : option pystr) (now : pystr) (l : list pystr) :
  forall st st', batch_loop (user_or_unknown u) now st l = Some st' ->
  bs_table st' = fold_left (fun t raw => snd (handle_message t raw u now)) l (bs_table st).
Proof.
  induction l as [|x l IH]; simpl; intros st st' H.
  - inversion H; reflexivity.
  - destruct (batch_step (user_or_unknown u) now st x) as [st1|] eqn:E; [| discriminate].
    rewrite (IH _ _ H), (batch_step_handle _ _ _ _ _ E); reflexivity.
Qed.

(** ** Lemmas on the import loop *)

Lemma import_rows_extends (cols : list pystr) (rows : list (list cell)) :
  forall t t1, import_rows cols t rows = Some t1 -> exists d, t1 = t ++ d.
Proof.
  induction rows as [|row rows IH]; simpl; intros t t1 H.
  - inversion H; subst; exists []; now rewrite app_nil_r.
  - destruct (row_client cols row) as [r|]; [| discriminate].
    destruct (IH _ _ H) as [d ->]; unfold sql_insert_or_ignore.
    destruct (violates_unique t r); [now exists d | exists (r :: d); now rewrite <- app_assoc].
Qed.

Lemma insert_or_ignore_has (t : table) (r : client) (p : pystr) :
  phone_number r = SText p -> In p (text_phones (sql_insert_or_ignore t r)).
Proof.
  intros Hr; unfold sql_insert_or_ignore, violates_unique; rewrite Hr.
  destruct (select_exists t p) eqn:E; [now apply select_exists_in |].
  rewrite text_phones_app, in_app_iff; right; simpl; rewrite Hr; now left.
Qed.

(** A second pass of the import loop over the same rows, on any table that
    holds every phone number the first pass produced, only adds the rows
    with an empty phone-number cell. *)
Lemma import_rows_again (cols : list pystr) (rows : list (list cell)) :
  forall t t1 u, import_rows cols t rows = Some t1 ->
  (forall p, In p (text_phones t1) -> In p (text_phones u)) ->
  import_rows cols u rows = Some (u ++ null_phone_clients cols rows).
Proof.
  induction rows as [|row rows IH]; simpl; intros t t1 u H Hsub.
  - now rewrite app_nil_r.
  - destruct (row_client cols row) as [r|]; [| discriminate].
    destruct (import_rows_extends _ _ _ _ H) as [d Hd].
    unfold sql_insert_or_ignore at 1; unfold violates_unique.
    destruct (phone_number r) as [|p] eqn:Hr.
    + erewrite IH; [rewrite <- app_assoc; reflexivity | exact H |].
      intros q Hq; rewrite text_phones_app, in_app_iff; left; now apply Hsub.
    + assert (Hp : select_exists u p = true).
      { apply select_exists_in, Hsub; rewrite Hd, text_phones_app, in_app_iff; left.
        now apply insert_or_ignore_has. }
      rewrite Hp; eapply IH; [exact H | exact Hsub].
Qed.

Lemma null_phone_clients_text (cols : list pystr) (rows : list (list cell)) :
  text_phones (null_phone_clients cols rows) = [].
Proof.
  induction rows as [|row rows IH]; [reflexivity |]; simpl.
  destruct (row_client cols row) as [r|]; [| reflexivity].
  destruct (phone_number r) eqn:Hr; [| exact IH].
  simpl; rewrite Hr; exact IH.
Qed.

(** ["abc"] fails the validator and the format rule, whatever the Unicode
    tables: its first character is not ['+']. *)
Lemma abc_invalid : valid_phone (str "abc") = false /\ matches_phone_regex (str "abc") = false.
Proof. split; reflexivity. Qed.


Lemma import_rows_has (cols : list pystr) (rows : list (list cell)) :
  forall t t1, import_rows cols t rows = Some t1 ->
  forall row p, In row rows -> row_get cols row col_phone_number = Some (SText p) ->
  In p (text_phones t1).
Proof.
  induction rows as [|row0 rows IH]; simpl; intros t t1 H row p Hrow Hget; [destruct Hrow |].
  destruct (row_client cols row0) as [r|] eqn:Hrc; [| discriminate].
  destruct Hrow as [<-|Hrow]; [| eapply IH; eauto].
  destruct (import_rows_extends _ _ _ _ H) as [d ->].
  rewrite text_phones_app, in_app_iff; left.
  apply insert_or_ignore_has.
  unfold row_client in Hrc; rewrite Hget in Hrc.
  destruct (row_get cols row0 col_username); [| discriminate].
  destruct (row_get cols row0 col_added_time); inversion Hrc; reflexivity.
Qed.

Lemma row_client_missing (cols : list pystr) (row : list cell) :
  column_index cols col_username = None \/ column_index cols col_phone_number = None \/
  column_index cols col_added_time = None -> row_client cols row = None.
Proof.
  unfold row_client, row_get; intros [H|[H|H]].
  - rewrite H; reflexivity.
  - destruct (column_index cols col_username); [rewrite H |]; reflexivity.
  - destruct (column_index cols col_username); [| reflexivity].
    destruct (column_index cols col_phone_number); [rewrite H |]; reflexivity.
Qed.



(** ** Claims *)

(** C1. Uniqueness invariant: if no two rows of [clients] share a non-NULL
    phone number, the same holds after [handle_message], after
    [batch_input] and after [import_data]. *)
Theorem unique_preserved (t : table) :
  unique_phones t ->
  (forall raw u now, unique_phones (snd (handle_message t raw u now))) /\
  (forall args u now, unique_phones (snd (batch_input t args u now))) /\
  (forall f, unique_phones (snd (import_data t f))).
Proof.
  intros Hu; split; [| split].
  - intros raw u now; unfold handle_message.
    destruct (negb _); [exact Hu |].
    destruct (number_exists _ _); [exact Hu |].
    apply add_number_unique; exact Hu.
  - intros [|x xs] u now; unfold batch_input; [exact Hu |].
    destruct (batch_loop (user_or_unknown u) now (mk_bs t [] [] []) (x :: xs))
      as [st|] eqn:E; simpl; [| exact Hu].
    eapply batch_loop_unique; [| exact E]; exact Hu.
  - intros [|cols rows]; simpl; [exact Hu |].
    destruct (import_rows cols t rows) eqn:E; simpl; [| exact Hu].
    eapply import_rows_unique; eauto.
Qed.

(** C3 (code bug). After the ['+'] the validator applies [str.isdigit],
    not [\d]: ['+'] followed by seven characters that are Unicode digits
    but not decimal digits (such as superscript two, U+00B2) passes the
    check of [handle_message] and [batch_input], yet does not match
    [^\+\d{7,15}$] and is not the string of plain digits the code's own
    comment and reply ask for. *)
Theorem validator_accepts_non_decimal_digits (c : N) :
  is_digit_char c = true -> is_decimal_char c = false ->
  valid_phone (plus_sign :: repeat c 7) = true /\
  matches_phone_regex (plus_sign :: repeat c 7) = false.
Proof.
  intros Hd Hdec; unfold valid_phone, matches_phone_regex, py_isdigit.
  cbn [repeat forallb]; rewrite Hd, Hdec; split; reflexivity.
Qed.

(** C4 (counterexample). [add_number] returns [None], not a boolean: on an
    empty table the row is inserted, yet the result is not [True]. *)
Lemma add_number_result_counterexample :
  let res := add_number [] (str "alice") (str "+11234567890") (str "2024-01-01 00:00:00") in
  snd res = [mk_client (SText (str "alice")) (SText (str "+11234567890"))
                       (SText (str "2024-01-01 00:00:00"))]
  /\ fst res <> PyBool true.
Proof. split; [reflexivity | discriminate]. Qed.

(** C4 (amended). [add_number] always returns [None]; it appends the row
    when the phone number is absent and leaves the table unchanged when it is
    present (the IntegrityError is swallowed). *)
Theorem add_number_spec (t : table) (u p a : pystr) :
  add_number t u p a =
  (PyNone, if number_exists t p then t
           else t ++ [mk_client (SText u) (SText p) (SText a)]).
Proof.
  unfold add_number, sql_insert, violates_unique, number_exists; simpl.
  destruct (select_exists t p); reflexivity.
Qed.

(** C5. A valid number absent from the table, sent twice as a message, is
    first saved (and then stored) and then reported as already existing. *)
Theorem ingest_twice (t : table) (p : pystr) (u1 u2 : option pystr) (now1 now2 : pystr) :
  valid_phone p = true -> number_exists t p = false ->
  fst (handle_message t p u1 now1) = ReplySaved p /\
  number_exists (snd (handle_message t p u1 now1)) p = true /\
  fst (handle_message (snd (handle_message t p u1 now1)) p u2 now2) = ReplyExists p.
Proof.
  intros Hp Hn.
  assert (Hstore : snd (handle_message t p u1 now1)
                   = t ++ [mk_client (SText (user_or_unknown u1)) (SText p) (SText now1)]).
  { unfold handle_message; rewrite strip_valid, Hp, Hn by exact Hp; simpl.
    rewrite add_number_eq, Hn; reflexivity. }
  assert (Hin : number_exists (snd (handle_message t p u1 now1)) p = true).
  { rewrite Hstore; unfold number_exists; rewrite select_exists_app; simpl.
    rewrite pystr_eqb_refl, orb_true_r; reflexivity. }
  split; [| split; [exact Hin |]].
  - unfold handle_message; rewrite strip_valid, Hp, Hn by exact Hp; reflexivity.
  - unfold handle_message at 1; rewrite strip_valid, Hp, Hin by exact Hp; reflexivity.
Qed.

(** C6. In a batch, a valid number is classified [Added] (appended to
    [added_list] and inserted) only when it is neither in the table nor
    among the earlier items of the batch; otherwise it is classified as
    already existing: the check sees the store and the batch's own inserts. *)
Theorem batch_later_duplicate (t : table) (user now : pystr) (pre : list pystr)
    (raw : pystr) (st : batch_state) :
  valid_phone (py_strip raw) = true ->
  batch_loop user now (mk_bs t [] [] []) pre = Some st ->
  batch_step user now st raw =
  Some (if number_exists t (py_strip raw)
           || existsb (fun q => pystr_eqb (py_strip q) (py_strip raw)) pre
        then mk_bs (bs_table st) (bs_added st) (bs_exists st ++ [py_strip raw]) (bs_invalid st)
        else mk_bs (bs_table st ++ [mk_client (SText user) (SText (py_strip raw)) (SText now)])
                   (bs_added st ++ [py_strip raw]) (bs_exists st) (bs_invalid st)).
Proof.
  intros Hv Hloop.
  pose proof (batch_loop_table _ _ _ _ _ Hloop (py_strip raw)) as Ht; simpl in Ht.
  rewrite existsb_strip_valid in Ht by exact Hv.
  unfold batch_step, number_exists; rewrite Hv, <- Ht.
  destruct (select_exists (bs_table st) (py_strip raw)) eqn:Hs; [reflexivity |].
  unfold sql_insert, violates_unique; simpl; rewrite Hs; reflexivity.
Qed.

(** C10. Both ingestion paths strip surrounding whitespace first: a valid
    number surrounded by whitespace is handled exactly as the bare number,
    by [handle_message] (whose reply then shows the bare number) and inside
    a batch. *)
Theorem strip_before_validate (ws1 p ws2 : pystr) :
  Forall (fun c => is_space c = true) ws1 ->
  Forall (fun c => is_space c = true) ws2 ->
  valid_phone p = true ->
  (forall t u now,
     handle_message t (ws1 ++ p ++ ws2) u now = handle_message t p u now /\
     (fst (handle_message t p u now) = ReplyExists p \/
      fst (handle_message t p u now) = ReplySaved p)) /\
  (forall t pre post u now,
     batch_input t (pre ++ (ws1 ++ p ++ ws2) :: post) u now =
     batch_input t (pre ++ p :: post) u now).
Proof.
  intros H1 H2 Hp.
  assert (E : py_strip (ws1 ++ p ++ ws2) = py_strip p)
    by (rewrite strip_around_valid, strip_valid by assumption; reflexivity).
  split.
  - intros t u now; split; [unfold handle_message; rewrite E; reflexivity |].
    unfold handle_message; rewrite strip_valid, Hp by exact Hp; simpl.
    destruct (number_exists t p); [left | right]; reflexivity.
  - intros t pre post u now; unfold batch_input.
    rewrite (batch_loop_strip _ _ _ _ post E pre).
    destruct pre; reflexivity.
Qed.


(** C7 (counterexample). A sheet with a row whose phone-number cell is
    empty is not idempotent: the row is stored with a NULL phone number,
    which the UNIQUE constraint never rejects, so each import adds it again. *)
Lemma import_twice_counterexample :
  let f := XlSheet std_cols [[CStr (str "alice"); CEmpty; CStr (str "2024-01-01 00:00:00")]] in
  List.length (snd (import_data (snd (import_data [] f)) f)) = 2%nat /\
  List.length (snd (import_data [] f)) = 1%nat.
Proof. split; reflexivity. Qed.

(** C7 (amended). After a successful import, importing the same file again
    succeeds and adds only the rows whose phone-number cell is empty (stored
    as NULL); no phone number is added. *)
Theorem import_twice (t t1 : table) (f : xlfile) :
  import_data t f = (ImportOk, t1) ->
  import_data t1 f = (ImportOk, t1 ++ import_null_rows f) /\
  text_phones (t1 ++ import_null_rows f) = text_phones t1.
Proof.
  destruct f as [|cols rows]; simpl; [discriminate |].
  destruct (import_rows cols t rows) as [t'|] eqn:E; [| discriminate].
  intros H; inversion H; subst t'.
  rewrite text_phones_app, null_phone_clients_text, app_nil_r; split; [| reflexivity].
  erewrite import_rows_again; [reflexivity | exact E | auto].
Qed.

Lemma import_twice_witness :
  import_data [] (XlSheet std_cols [[CStr (str "a"); CStr (str "+11234567"); CEmpty]])
  = (ImportOk, [mk_client (SText (str "a")) (SText (str "+11234567")) SNull]) /\
  fst (import_data [mk_client (SText (str "a")) (SText (str "+11234567")) SNull]
        (XlSheet std_cols [[CStr (str "a"); CStr (str "+11234567"); CEmpty]]))
  = ImportOk.
Proof.
  split; [reflexivity |].
  rewrite (proj1 (import_twice [] [mk_client (SText (str "a")) (SText (str "+11234567")) SNull]
                   (XlSheet std_cols [[CStr (str "a"); CStr (str "+11234567"); CEmpty]])
                   eq_refl)); reflexivity.
Defined.

(** C8 (amended). Importing a sheet of two rows with distinct phone numbers
    absent from the table stores both rows, whether or not the numbers pass
    the validator, and reports success. *)
Theorem import_two_rows (t : table) (u1 p1 a1 u2 p2 a2 : pystr) :
  number_exists t p1 = false -> number_exists t p2 = false -> p1 <> p2 ->
  import_data t (XlSheet std_cols [[CStr u1; CStr p1; CStr a1]; [CStr u2; CStr p2; CStr a2]])
  = (ImportOk, t ++ [mk_client (SText u1) (SText p1) (SText a1);
                     mk_client (SText u2) (SText p2) (SText a2)]).
Proof.
  intros H1 H2 Hne; unfold number_exists in *.
  simpl; unfold sql_insert_or_ignore, violates_unique; simpl.
  rewrite H1, select_exists_app, H2; simpl.
  destruct (pystr_eqb p1 p2) eqn:E; [apply pystr_eqb_spec in E; contradiction |].
  rewrite <- app_assoc; reflexivity.
Qed.

Lemma import_two_rows_witness :
  fst (import_data [] (XlSheet std_cols
         [[CStr (str "alice"); CStr (str "+11234567890"); CStr (str "t")];
          [CStr (str "bob"); CStr (str "abc"); CStr (str "t")]])) = ImportOk.
Proof.
  rewrite (import_two_rows [] (str "alice") (str "+11234567890") (str "t")
             (str "bob") (str "abc") (str "t") eq_refl eq_refl ltac:(discriminate)).
  reflexivity.
Defined.

(** C9 (counterexample). A sheet without the expected columns and without
    data rows is reported as a successful import. *)
Lemma import_bad_columns_counterexample :
  let f := XlSheet [str "name"; str "phone"] [] in
  column_index [str "name"; str "phone"] col_phone_number = None /\
  import_data [] f = (ImportOk, []).
Proof. split; reflexivity. Qed.

(** C9 (amended). Whenever the import reports failure the table is
    unchanged; an unreadable file, and a sheet lacking one of the columns
    [username], [phone_number], [added_time] with at least one data row,
    report failure; a sheet with no data rows, whatever its columns, is
    reported as a success and leaves the table unchanged. *)
Theorem import_failure_no_rows :
  (forall t f, fst (import_data t f) = ImportFailed -> snd (import_data t f) = t) /\
  (forall t, import_data t XlUnreadable = (ImportFailed, t)) /\
  (forall t cols row rows,
     column_index cols col_username = None \/ column_index cols col_phone_number = None \/
     column_index cols col_added_time = None ->
     import_data t (XlSheet cols (row :: rows)) = (ImportFailed, t)) /\
  (forall t cols, import_data t (XlSheet cols []) = (ImportOk, t)).
Proof.
  split; [| split; [| split]].
  - intros t [|cols rows]; simpl; [reflexivity |].
    destruct (import_rows cols t rows); simpl; [discriminate | reflexivity].
  - reflexivity.
  - intros t cols row rows Hmiss; simpl.
    rewrite row_client_missing by exact Hmiss; reflexivity.
  - reflexivity.
Qed.

Lemma import_failure_no_rows_witness :
  import_data [] (XlSheet [str "name"] [[CStr (str "x")]]) = (ImportFailed, []).
Proof.
  apply (proj1 (proj2 (proj2 import_failure_no_rows))); right; left; reflexivity.
Defined.

(** ** Further properties of the code *)

(** [batch_input] with at least one argument always produces the batch
    report: its plain INSERT never raises, thanks to the preceding SELECT. *)
Theorem batch_input_total (t : table) (args : list pystr) (u : option pystr) (now : pystr) :
  args <> [] ->
  exists added existing invalid t',
  batch_input t args u now = (BatchResult added existing invalid, t').
Proof.
  intros Hne; destruct args as [|x xs]; [contradiction |]; unfold batch_input.
  destruct (batch_loop_some (user_or_unknown u) now (x :: xs) (mk_bs t [] [] []))
    as [st ->].
  do 4 eexists; reflexivity.
Qed.

(** What a batch stores: the table afterwards is the old table followed by
    one row per added number, in order, all with the same username and
    timestamp; the added numbers are pairwise distinct and were absent from
    the table. *)
Theorem batch_input_storage (t t' : table) (args : list pystr) (u : option pystr)
    (now : pystr) (added existing invalid : list pystr) :
  batch_input t args u now = (BatchResult added existing invalid, t') ->
  t' = t ++ map (new_client (user_or_unknown u) now) added /\
  NoDup added /\ (forall p, In p added -> number_exists t p = false).
Proof.
  destruct args as [|x xs]; [discriminate |]; unfold batch_input.
  destruct (batch_loop (user_or_unknown u) now (mk_bs t [] [] []) (x :: xs))
    as [st|] eqn:E; [| discriminate].
  intros H; inversion H; subst.
  pose proof (batch_inv_init t (user_or_unknown u) now) as Hi0.
  destruct (batch_loop_inv _ _ _ _ _ _ Hi0 E) as [Ht [Hnd [Hfresh _]]].
  split; [exact Ht |]; split; [exact Hnd | exact Hfresh].
Qed.


(** A batch leaves the table exactly as sending its arguments one by one
    as messages (same sender, same timestamp) would. *)
Theorem batch_as_messages (t : table) (args : list pystr) (u : option pystr) (now : pystr) :
  snd (batch_input t args u now)
  = fold_left (fun t0 raw => snd (handle_message t0 raw u now)) args t.
Proof.
  destruct args as [|x xs]; [reflexivity |]; unfold batch_input.
  destruct (batch_loop_some (user_or_unknown u) now (x :: xs) (mk_bs t [] [] []))
    as [st E]; rewrite E; simpl.
  exact (batch_loop_handle _ _ _ _ _ E).
Qed.

(** A one-argument batch classifies its argument as [handle_message]
    does: invalid, already existing or added. *)
Theorem batch_single (t : table) (raw : pystr) (u : option pystr) (now : pystr) :
  fst (batch_input t [raw] u now) =
  match fst (handle_message t raw u now) with
  | ReplyInvalid => BatchResult [] [] [py_strip raw]
  | ReplyExists p => BatchResult [] [p] []
  | ReplySaved p => BatchResult [p] [] []
  end.
Proof.
  unfold batch_input, batch_loop, batch_step, handle_message, number_exists.
  destruct (valid_phone (py_strip raw)); simpl; [| reflexivity].
  destruct (select_exists t (py_strip raw)) eqn:Hs; [reflexivity |].
  unfold sql_insert, violates_unique; simpl; rewrite Hs; reflexivity.
Qed.

(** What [handle_message] does to the table: it appends the stripped text,
    with the sender's handle (or ["unknown"]) and the timestamp, exactly
    when it replies that the number was saved, which it does only for a
    valid number absent from the table; otherwise the table is unchanged. *)
Theorem handle_message_effect (t : table) (raw : pystr) (u : option pystr) (now : pystr) :
  snd (handle_message t raw u now) =
    match fst (handle_message t raw u now) with
    | ReplySaved p => t ++ [new_client (user_or_unknown u) now p]
    | _ => t
    end /\
  (forall p, fst (handle_message t raw u now) = ReplySaved p ->
     p = py_strip raw /\ valid_phone p = true /\ number_exists t p = false) /\
  (forall p, fst (handle_message t raw u now) = ReplyExists p ->
     p = py_strip raw /\ valid_phone p = true /\ number_exists t p = true) /\
  (fst (handle_message t raw u now) = ReplyInvalid -> valid_phone (py_strip raw) = false).
Proof.
  unfold handle_message.
  destruct (valid_phone (py_strip raw)) eqn:Hv; simpl.
  - destruct (number_exists t (py_strip raw)) eqn:Hn; simpl.
    + split; [reflexivity |]; split; [discriminate |]; split; [| discriminate].
      intros p H; inversion H; subst; auto.
    + rewrite add_number_eq, Hn; split; [reflexivity |]; split; [| split; discriminate].
      intros p H; inversion H; subst; auto.
  - split; [reflexivity |]; split; [discriminate |]; split; [discriminate | auto].
Qed.

(** Insert then lookup: after [add_number] the number is found, and the
    answer of [number_exists] for every other number is unchanged. *)
Theorem add_number_lookup (t : table) (u p a q : pystr) :
  number_exists (snd (add_number t u p a)) q = number_exists t q || pystr_eqb p q.
Proof.
  rewrite add_number_eq; simpl.
  destruct (number_exists t p) eqn:Hp.
  - destruct (pystr_eqb p q) eqn:E; [| now rewrite orb_false_r].
    apply pystr_eqb_spec in E; subst; now rewrite Hp.
  - unfold number_exists; rewrite select_exists_app; simpl; now rewrite orb_false_r.
Qed.

(** The table is append-only: [handle_message], [batch_input] and
    [import_data] never change or remove an existing row. *)
Theorem operations_append_only (t : table) :
  (forall raw u now, exists d, snd (handle_message t raw u now) = t ++ d) /\
  (forall args u now, exists d, snd (batch_input t args u now) = t ++ d) /\
  (forall f, exists d, snd (import_data t f) = t ++ d).
Proof.
  split; [| split].
  - intros raw u now; unfold handle_message.
    destruct (negb (valid_phone (py_strip raw))); [exists []; now rewrite app_nil_r |].
    destruct (number_exists t (py_strip raw)); [exists []; now rewrite app_nil_r |].
    rewrite add_number_eq; destruct (number_exists t (py_strip raw));
      [exists []; now rewrite app_nil_r | eexists; reflexivity].
  - intros [|x xs] u now; unfold batch_input; [exists []; now rewrite app_nil_r |].
    destruct (batch_loop (user_or_unknown u) now (mk_bs t [] [] []) (x :: xs))
      as [st|] eqn:E; simpl; [| exists []; now rewrite app_nil_r].
    pose proof (batch_inv_init t (user_or_unknown u) now) as Hi0.
    destruct (batch_loop_inv _ _ _ _ _ _ Hi0 E) as [Ht _]; eexists; exact Ht.
  - intros [|cols rows]; simpl; [exists []; now rewrite app_nil_r |].
    destruct (import_rows cols t rows) eqn:E; simpl;
      [eapply import_rows_extends; eauto | exists []; now rewrite app_nil_r].
Qed.

(** After a successful import, every phone number read from the file's
    [phone_number] column is in the table. *)
Theorem import_complete (t t1 : table) (cols : list pystr) (rows : list (list cell))
    (row : list cell) (p : pystr) :
  import_data t (XlSheet cols rows) = (ImportOk, t1) ->
  In row rows -> row_get cols row col_phone_number = Some (SText p) ->
  number_exists t1 p = true.
Proof.
  simpl; destruct (import_rows cols t rows) as [t'|] eqn:E; [| discriminate].
  intros H Hrow Hget; inversion H; subst t'.
  apply select_exists_in; eapply import_rows_has; eauto.
Qed.

Lemma import_complete_witness :
  number_exists (snd (import_data [] (XlSheet std_cols
     [[CStr (str "a"); CStr (str "abc"); CEmpty]]))) (str "abc") = true.
Proof.
  exact (import_complete [] _ std_cols [[CStr (str "a"); CStr (str "abc"); CEmpty]]
           [CStr (str "a"); CStr (str "abc"); CEmpty] (str "abc")
           eq_refl (or_introl eq_refl) eq_refl).
Defined.

(** The validator accepts every string matching [^\+\d{7,15}$] (a ['+']
    then 7 to 15 decimal digits, nothing else), and on ASCII strings it
    accepts exactly those. *)
Theorem validator_regex_ascii :
  (forall s, matches_phone_regex s = true -> valid_phone s = true) /\
  (forall s, Forall (fun c => c < 128) s -> valid_phone s = matches_phone_regex s).
Proof.
  split.
  - intros [|c rest] H; [discriminate |].
    unfold matches_phone_regex, valid_phone in *.
    rewrite !andb_true_iff in H |- *; destruct H as [[[H1 H2] H3] H4].
    destruct rest as [|d r]; [vm_compute in H3; discriminate |].
    repeat split; auto.
    apply forallb_forall; intros x Hx.
    apply decimal_is_digit; exact (proj1 (forallb_forall _ _) H2 x Hx).
  - intros [|c rest] HF; [reflexivity |].
    inversion HF as [|? ? _ Hrest]; subst.
    unfold matches_phone_regex, valid_phone.
    destruct rest as [|d r]; [destruct (c =? plus_sign); reflexivity |].
    change (py_isdigit (d :: r)) with (forallb is_digit_char (d :: r)).
    rewrite forallb_ascii_digit by exact Hrest; reflexivity.
Qed.

End Mybot.

(** ** Concrete runs, on the sample fragment of the Unicode database *)

Example valid_phone_us : valid_phone sample_ucd (str "+11234567890") = true.
Proof. reflexivity. Qed.

Example valid_phone_short : valid_phone sample_ucd (str "+123456") = false.
Proof. reflexivity. Qed.

Example valid_phone_superscripts :
  valid_phone sample_ucd (plus_sign :: repeat 178 7) = true.
Proof. reflexivity. Qed.

Example batch_ex :
  fst (batch_input sample_ucd [] [str "+11234567890"; str "+11234567890"; str "abc"] None
         (str "t"))
  = BatchResult [str "+11234567890"] [str "+11234567890"] [str "abc"].
Proof. reflexivity. Qed.

Example handle_message_user_ex :
  snd (handle_message sample_ucd [] (str "+11234567890") (Some (str "dave")) (str "t"))
  = [new_client (str "dave") (str "t") (str "+11234567890")].
Proof. reflexivity. Qed.

Lemma unique_preserved_witness :
  unique_phones [] /\
  unique_phones (snd (handle_message sample_ucd [] (str "+11234567890") None (str "t"))).
Proof.
  split; [constructor |].
  apply (unique_preserved sample_ucd [] (NoDup_nil _)).
Defined.

Lemma validator_accepts_non_decimal_digits_witness :
  valid_phone sample_ucd (plus_sign :: repeat 178 7) = true /\
  matches_phone_regex sample_ucd (plus_sign :: repeat 178 7) = false.
Proof. exact (validator_accepts_non_decimal_digits sample_ucd 178 eq_refl eq_refl). Defined.

Lemma ingest_twice_witness :
  valid_phone sample_ucd (str "+11234567890") = true /\
  number_exists [] (str "+11234567890") = false /\
  fst (handle_message sample_ucd (snd (handle_message sample_ucd [] (str "+11234567890")
                                         None (str "t1")))
         (str "+11234567890") (Some (str "bob")) (str "t2"))
  = ReplyExists (str "+11234567890").
Proof.
  split; [reflexivity | split; [reflexivity |]].
  exact (proj2 (proj2 (ingest_twice sample_ucd [] (str "+11234567890") None (Some (str "bob"))
                         (str "t1") (str "t2") eq_refl eq_refl))).
Defined.

Lemma batch_later_duplicate_witness :
  exists st,
  batch_loop sample_ucd (str "unknown") (str "t") (mk_bs [] [] [] []) [str "+11234567890"]
  = Some st /\
  batch_step sample_ucd (str "unknown") (str "t") st (str "+11234567890") =
  Some (mk_bs (bs_table st) (bs_added st) (bs_exists st ++ [str "+11234567890"]) (bs_invalid st)).
Proof.
  eexists; split; [reflexivity |].
  exact (batch_later_duplicate sample_ucd [] (str "unknown") (str "t") [str "+11234567890"]
           (str "+11234567890") _ eq_refl eq_refl).
Defined.

Lemma strip_before_validate_witness :
  handle_message sample_ucd [] (str " +11234567890 ") None (str "t")
  = handle_message sample_ucd [] (str "+11234567890") None (str "t").
Proof.
  refine (proj1 (proj1 (strip_before_validate sample_ucd [32] (str "+11234567890") [32]
            _ _ _) [] None (str "t"))); repeat constructor.
Defined.


Lemma batch_input_total_witness :
  exists added existing invalid t',
  batch_input sample_ucd [] [str "x"] None (str "t") = (BatchResult added existing invalid, t').
Proof. apply (batch_input_total sample_ucd); discriminate. Defined.

Lemma batch_input_storage_witness :
  snd (batch_input sample_ucd [] [str "+11234567"; str "+11234567"] None (str "t"))
  = [new_client (str "unknown") (str "t") (str "+11234567")].
Proof.
  exact (proj1 (batch_input_storage sample_ucd [] _ [str "+11234567"; str "+11234567"] None
                  (str "t") [str "+11234567"] [str "+11234567"] [] eq_refl)).
Defined.


Lemma validator_regex_ascii_witness :
  valid_phone sample_ucd (str "+11234567890") = matches_phone_regex sample_ucd (str "+11234567890").
Proof. apply (proj2 (validator_regex_ascii sample_ucd)); repeat constructor. Defined.


(** C8 (counterexample). A sheet with one new valid row and one malformed
    row (phone number ["abc"]) reports success, but the malformed row is
    stored, not skipped. *)
Lemma import_malformed_counterexample :
  let f := XlSheet std_cols
             [[CStr (str "alice"); CStr (str "+11234567890"); CStr (str "2024-01-01 00:00:00")];
              [CStr (str "bob"); CStr (str "abc"); CStr (str "2024-01-01 00:00:00")]] in
  fst (import_data [] f) = ImportOk /\
  In (mk_client (SText (str "bob")) (SText (str "abc")) (SText (str "2024-01-01 00:00:00")))
     (snd (import_data [] f)) /\
  valid_phone sample_ucd (str "abc") = false.
Proof. split; [reflexivity | split; [simpl; right; left; reflexivity | apply (abc_invalid sample_ucd)]]. Qed.
